(** * Commission models of [zipline.finance.commission]

    A shallow embedding of the commission policies ([PerShare],
    [PerContract], [PerEquityTrade], [PerFutureTrade], [PerEquityDollar],
    [PerFutureDollar]) and of the mixins they are assembled from
    ([PerUnit], [PerTradeBase], [PerDollarBase]), in two layers.

    The first layer fixes the documented types of the configuration and
    computes on exact rationals [Q]: [abs] is [Qabs], [*], [+], [-] are the
    field operations, [==] on numbers is [Qeq] and [<] is [Qlt].  It
    carries the statements about the branches and formulas of the
    policies; sums over several fills proved in it hold in exact
    arithmetic, and on binary64 up to rounding only.

    The second layer, [Runtime], is the module as the interpreter runs
    it: constructor arguments are arbitrary objects and numbers are
    binary64 floats.  It carries the statements that depend on what a
    constructor accepts or on the rounding of an operation. *)

From Stdlib Require Import QArith Qabs Qminmax Lqa Lia List Floats.
From stdpp Require Import gmap strings fin_maps.
Import ListNotations.

Local Open Scope Q_scope.

Set Warnings "-inexact-float".

(** ** Python values and exceptions *)

(** The values of the documented argument types: [None], an [int] (taken
    within the range of [float]), a [float], or a [dict] from root symbols
    to numbers.  Strings, integers beyond that range and arbitrary objects
    as minimum are the matter of [Runtime] below. *)
Inductive pyval : Type :=
| PyNone
| PyInt (z : Z)
| PyFloat (q : Q)
| PyDict (d : gmap string Q).

Inductive pyexn : Type :=
| TypeError
| AttributeError
| ValueError
| OverflowError.

(** Result of a computation that may raise. *)
Inductive res (A : Type) : Type :=
| Ok (a : A)
| Raise (e : pyexn).
Arguments Ok {A} a.
Arguments Raise {A} e.

Definition bind {A B : Type} (m : res A) (k : A -> res B) : res B :=
  match m with
  | Ok a => k a
  | Raise e => Raise e
  end.

(** [float(v)] on these values: numbers convert, [None] and dictionaries
    raise [TypeError]. *)
Definition py_float (v : pyval) : res Q :=
  match v with
  | PyInt z => Ok (inject_Z z)
  | PyFloat q => Ok q
  | PyNone => Raise TypeError
  | PyDict _ => Raise TypeError
  end.

(** [d.get(key, default)] on a dictionary. *)
Definition dict_get (d : gmap string Q) (key : string) (default : Q) : Q :=
  match d !! key with
  | Some c => c
  | None => default
  end.

(** [v.get(key, default)] on an arbitrary value: only a dictionary has the
    attribute [get]. *)
Definition py_get (v : pyval) (key : string) (default : Q) : res Q :=
  match v with
  | PyDict d => Ok (dict_get d key default)
  | _ => Raise AttributeError
  end.

(** [max(a, b)] on two numbers: [b] replaces [a] only when [b > a]. *)
Definition py_max (a b : Q) : Q :=
  if Qlt_le_dec a b then b else a.

(** ** Module constants *)

Definition DEFAULT_PER_SHARE_COST : Q := 75 # 10000.
Definition DEFAULT_PER_DOLLAR_COST : Q := 15 # 10000.
Definition DEFAULT_MINIMUM_COST_PER_TRADE : Q := 1.
Definition DEFAULT_FUTURE_COST_PER_TRADE : Q := 235 # 100.

Definition DEFAULT_FUTURE_SYMBOLS : list string :=
  [ "AD"; "AI"; "BD"; "BO"; "BP"; "CD"; "CL"; "CM"; "CN"; "DJ"; "EC"; "ED";
    "EE"; "EI"; "EL"; "ER"; "ES"; "ET"; "EU"; "FC"; "FF"; "FI"; "FS"; "FV";
    "GC"; "HG"; "HO"; "HU"; "JE"; "JY"; "LB"; "LC"; "LH"; "MB"; "MD"; "ME";
    "MG"; "MI"; "MS"; "MW"; "ND"; "NG"; "NK"; "NQ"; "NZ"; "OA"; "PA"; "PB";
    "PL"; "QG"; "QM"; "RM"; "RR"; "SB"; "SF"; "SM"; "SP"; "SV"; "SY"; "TB";
    "TN"; "TS"; "TU"; "TY"; "UB"; "US"; "VX"; "WC"; "XB"; "XG"; "YM";
    "YS" ]%string.

(** Every root symbol of the table carries the same rate, [2.35]. *)
Definition DEFAULT_FUTURE_COST_BY_SYMBOL : gmap string Q :=
  list_to_map (map (fun s => (s, 235 # 100)) DEFAULT_FUTURE_SYMBOLS).
Arguments DEFAULT_FUTURE_COST_BY_SYMBOL : simpl never.

(** ** The collaborators: asset, order, transaction *)

Record Asset : Type := { root_symbol : string }.

Record Order : Type := {
  commission : Q;
  filled : Q;
  asset : Asset
}.

Record Transaction : Type := {
  amount : Q;
  price : Q
}.

(** ** The mixin [PerUnit] *)

Module PerUnit.

(** [PerUnit._calculate(self, order, transaction, cost_per_unit)]; the
    only attribute of [self] it reads is [min_trade_cost], [None] when no
    minimum is configured. *)
Definition _calculate (min_trade_cost : option Q)
    (order : Order) (transaction : Transaction) (cost_per_unit : Q) : Q :=
  let additional_commission :=
    Qabs (amount transaction * cost_per_unit) in
  match min_trade_cost with
  | None => additional_commission
  | Some min_cost =>
      if Qeq_bool (commission order) 0 then
        py_max min_cost additional_commission
      else
        let per_unit_total :=
          filled order * cost_per_unit + additional_commission in
        if Qlt_le_dec per_unit_total min_cost then 0
        else per_unit_total - commission order
  end.

End PerUnit.

(** ** [PerShare] *)

Module PerShare.

Record t : Type := {
  cost_per_share : Q;
  min_trade_cost : option Q
}.

(** [float(cost)] is the only check; [min_trade_cost] is stored as
    given, here with its documented type ([float], optional). *)
Definition __init__ (cost : pyval) (min_cost : option Q) : res t :=
  bind (py_float cost) (fun c =>
  Ok {| cost_per_share := c; min_trade_cost := min_cost |}).

(** [PerShare()] with both keyword defaults. *)
Definition default : res t :=
  __init__ (PyFloat DEFAULT_PER_SHARE_COST)
           (Some DEFAULT_MINIMUM_COST_PER_TRADE).

Definition calculate (self : t) (order : Order)
    (transaction : Transaction) : res Q :=
  Ok (PerUnit._calculate (min_trade_cost self) order transaction
        (cost_per_share self)).

End PerShare.

(** ** [PerContract] *)

Module PerContract.

Record t : Type := {
  cost_per_contract : pyval;
  min_trade_cost : option Q
}.

(** An [int] cost becomes a [float]; anything else is stored as it is. *)
Definition __init__ (cost : pyval) (min_cost : option Q) : res t :=
  let cost := match cost with
              | PyInt z => PyFloat (inject_Z z)
              | _ => cost
              end in
  Ok {| cost_per_contract := cost; min_trade_cost := min_cost |}.

Definition calculate (self : t) (order : Order)
    (transaction : Transaction) : res Q :=
  bind
    (match cost_per_contract self with
     | PyFloat c => Ok c
     | other =>
         let root := root_symbol (asset order) in
         let backup_cost :=
           dict_get DEFAULT_FUTURE_COST_BY_SYMBOL root
             DEFAULT_FUTURE_COST_PER_TRADE in
         py_get other root backup_cost
     end)
    (fun cost =>
     Ok (PerUnit._calculate (min_trade_cost self) order transaction cost)).

End PerContract.

(** ** [PerTradeBase], [PerEquityTrade], [PerFutureTrade] *)

Module PerTradeBase.

Record t : Type := { cost : Q }.

Definition __init__ (c : pyval) : res t :=
  bind (py_float c) (fun c => Ok {| cost := c |}).

Definition calculate (self : t) (order : Order)
    (transaction : Transaction) : res Q :=
  if Qeq_bool (commission order) 0 then Ok (cost self) else Ok 0.

End PerTradeBase.

Module PerEquityTrade.

Definition __init__ (c : pyval) : res PerTradeBase.t :=
  PerTradeBase.__init__ c.

Definition default : res PerTradeBase.t :=
  __init__ (PyFloat DEFAULT_MINIMUM_COST_PER_TRADE).

End PerEquityTrade.

(** ** [PerDollarBase], [PerEquityDollar], [PerFutureDollar] *)

Module PerDollarBase.

Record t : Type := { cost_per_dollar : Q }.

Definition __init__ (c : pyval) : res t :=
  bind (py_float c) (fun c => Ok {| cost_per_dollar := c |}).

Definition default : res t := __init__ (PyFloat DEFAULT_PER_DOLLAR_COST).

Definition calculate (self : t) (order : Order)
    (transaction : Transaction) : res Q :=
  let cost_per_share := price transaction * cost_per_dollar self in
  Ok (Qabs (amount transaction) * cost_per_share).

End PerDollarBase.

(** ** The interface [CommissionModel] and its concrete classes *)

Class CommissionModel (M : Type) : Type :=
  calculate : M -> Order -> Transaction -> res Q.

#[export] Instance PerShare_model : CommissionModel PerShare.t :=
  PerShare.calculate.
#[export] Instance PerContract_model : CommissionModel PerContract.t :=
  PerContract.calculate.
#[export] Instance PerTradeBase_model : CommissionModel PerTradeBase.t :=
  PerTradeBase.calculate.
#[export] Instance PerDollarBase_model : CommissionModel PerDollarBase.t :=
  PerDollarBase.calculate.

(** Any instance of one of the six concrete classes.  [PerTrade] and
    [PerDollar] are aliases of [PerEquityTrade] and [PerEquityDollar]. *)
Inductive policy : Type :=
| PerShare (p : PerShare.t)
| PerContract (p : PerContract.t)
| PerEquityTrade (p : PerTradeBase.t)
| PerFutureTrade (p : PerTradeBase.t)
| PerEquityDollar (p : PerDollarBase.t)
| PerFutureDollar (p : PerDollarBase.t).

Definition PerTrade := PerEquityTrade.
Definition PerDollar := PerEquityDollar.

#[export] Instance policy_model : CommissionModel policy :=
  fun p =>
    match p with
    | PerShare p => calculate p
    | PerContract p => calculate p
    | PerEquityTrade p | PerFutureTrade p => calculate p
    | PerEquityDollar p | PerFutureDollar p => calculate p
    end.

(** ** The caller *)

(** Modelled from the spec: the caller's bookkeeping between two calls is
    not part of this module.  After each call it adds the returned charge
    to [order.commission] and the transaction's (signed) amount to
    [order.filled]. *)
Definition record_fill (order : Order) (transaction : Transaction)
    (charge : Q) : Order :=
  {| commission := commission order + charge;
     filled := filled order + amount transaction;
     asset := asset order |}.

(** Modelled from the spec: the caller's loop over the fills of one order,
    which is not part of this module.  It calls [calculate] once per
    transaction, in arrival order, and records each fill before the next
    call; the result is the list of the charges returned. *)
Fixpoint charges {M : Type} `{CommissionModel M} (model : M)
    (order : Order) (fills : list Transaction) : res (list Q) :=
  match fills with
  | [] => Ok []
  | transaction :: rest =>
      bind (calculate model order transaction) (fun charge =>
      bind (charges model (record_fill order transaction charge) rest)
        (fun later => Ok (charge :: later)))
  end.

(** Sum of a list of numbers. *)
Definition Qsum (l : list Q) : Q := fold_right Qplus 0 l.

(** A fresh order: nothing charged, nothing filled. *)
Definition fresh_order (a : Asset) : Order :=
  {| commission := 0; filled := 0; asset := a |}.

Definition fill (a : Q) (p : Q) : Transaction :=
  {| amount := a; price := p |}.

(** * The module as the interpreter runs it

    The definitions above fix the types of the configuration (a rational
    cost, an optional rational minimum) and compute on exact rationals.
    [Runtime] drops both idealisations: constructor arguments are
    arbitrary objects ([None], [int], [float], [str], [dict]), stored and
    checked exactly as the constructors do, and every number of an order, a
    transaction and a result is a binary64 [float], with the rounding of
    each operation.  Comparisons follow Python 3: ordering a number against
    a [str] or a [dict] raises [TypeError]; [int] and [float] compare by
    value. *)

Module Runtime.

Local Open Scope float_scope.

Inductive pyobj : Type :=
| ONone
| OInt (z : Z)
| OFloat (f : float)
| OStr (s : string)
| ODict (d : gmap string float).

(** A number returned by [calculate]: the [float] computed, or an [int]
    (the literal [0], or an [int] minimum returned by [max]). *)
Inductive pynum : Type :=
| NInt (z : Z)
| NFloat (f : float).

(** The [float] nearest to an [int] (ties to even); [infinity] when the
    [int] is beyond the range of the format. *)
Definition float_of_Z (z : Z) : float :=
  SF2Prim (binary_normalize prec emax z 0 false).

(** [float(z)] for an [int]: [OverflowError] beyond the range. *)
Definition int_to_float (z : Z) : res float :=
  let f := float_of_Z z in
  if is_infinity f then Raise OverflowError else Ok f.

(** Exact comparison of a [float] with an [int]; [None] for [nan]. *)
Definition float_compare_Z (f : float) (z : Z) : option comparison :=
  match Prim2SF f with
  | S754_nan => None
  | S754_infinity s => Some (if s then Lt else Gt)
  | S754_zero _ => Some (0 ?= z)%Z
  | S754_finite s m e =>
      let v := if s then Zneg m else Zpos m in
      Some (if (0 <=? e)%Z then (v * 2 ^ e ?= z)%Z
            else (v ?= z * 2 ^ (- e))%Z)
  end.

(** [f > v] and [f < v] for a [float] [f] and an arbitrary object [v]. *)
Definition float_gt (f : float) (v : pyobj) : res bool :=
  match v with
  | OFloat g => Ok (g <? f)
  | OInt z => Ok (match float_compare_Z f z with
                  | Some Gt => true
                  | _ => false
                  end)
  | ONone | OStr _ | ODict _ => Raise TypeError
  end.

Definition float_lt (f : float) (v : pyobj) : res bool :=
  match v with
  | OFloat g => Ok (f <? g)
  | OInt z => Ok (match float_compare_Z f z with
                  | Some Lt => true
                  | _ => false
                  end)
  | ONone | OStr _ | ODict _ => Raise TypeError
  end.

(** A numeric object as a result. *)
Definition number_of (v : pyobj) : res pynum :=
  match v with
  | OFloat g => Ok (NFloat g)
  | OInt z => Ok (NInt z)
  | ONone | OStr _ | ODict _ => Raise TypeError
  end.

(** [max(a, b)] for an object [a] and a [float] [b]: [b] when [b > a],
    otherwise [a]. *)
Definition py_max (a : pyobj) (b : float) : res pynum :=
  bind (float_gt b a) (fun gt => if gt then Ok (NFloat b) else number_of a).

Definition DEFAULT_FUTURE_COST_PER_TRADE : float := 2.35.

Definition DEFAULT_FUTURE_COST_BY_SYMBOL : gmap string float :=
  list_to_map (map (fun s => (s, 2.35)) DEFAULT_FUTURE_SYMBOLS).
Arguments DEFAULT_FUTURE_COST_BY_SYMBOL : simpl never.

Record Order : Type := {
  commission : float;
  filled : float;
  asset : Asset
}.

Record Transaction : Type := {
  amount : float;
  price : float
}.

Module PerUnit.

Definition _calculate (min_trade_cost : pyobj)
    (order : Order) (transaction : Transaction) (cost_per_unit : float)
    : res pynum :=
  let additional_commission := abs (amount transaction * cost_per_unit) in
  match min_trade_cost with
  | ONone => Ok (NFloat additional_commission)
  | _ =>
      if commission order =? 0 then
        py_max min_trade_cost additional_commission
      else
        let per_unit_total :=
          filled order * cost_per_unit + additional_commission in
        bind (float_lt per_unit_total min_trade_cost) (fun below =>
        if below then Ok (NInt 0)
        else Ok (NFloat (per_unit_total - commission order)))
  end.

End PerUnit.

Module PerTradeBase.

Record t : Type := { cost : float }.

Definition calculate (self : t) (order : Order)
    (transaction : Transaction) : res pynum :=
  if commission order =? 0 then Ok (NFloat (cost self)) else Ok (NFloat 0).

End PerTradeBase.

Module PerDollarBase.

Record t : Type := { cost_per_dollar : float }.

Definition calculate (self : t) (order : Order)
    (transaction : Transaction) : res pynum :=
  let cost_per_share := price transaction * cost_per_dollar self in
  Ok (NFloat (abs (amount transaction) * cost_per_share)).

End PerDollarBase.

Module PerShare.

Record t : Type := {
  cost_per_share : float;
  min_trade_cost : pyobj
}.

Definition calculate (self : t) (order : Order)
    (transaction : Transaction) : res pynum :=
  PerUnit._calculate (min_trade_cost self) order transaction
    (cost_per_share self).

End PerShare.

Module PerContract.

Record t : Type := {
  cost_per_contract : pyobj;
  min_trade_cost : pyobj
}.

(** [isinstance(cost, int)]: only an [int] is converted, and the
    conversion may overflow. *)
Definition __init__ (cost min_cost : pyobj) : res t :=
  bind (match cost with
        | OInt z => bind (int_to_float z) (fun f => Ok (OFloat f))
        | _ => Ok cost
        end)
    (fun cost =>
     Ok {| cost_per_contract := cost; min_trade_cost := min_cost |}).

Definition calculate (self : t) (order : Order)
    (transaction : Transaction) : res pynum :=
  bind
    (match cost_per_contract self with
     | OFloat c => Ok c
     | ODict d =>
         let root := root_symbol (asset order) in
         let backup_cost :=
           match DEFAULT_FUTURE_COST_BY_SYMBOL !! root with
           | Some c => c
           | None => DEFAULT_FUTURE_COST_PER_TRADE
           end in
         Ok (match d !! root with
             | Some c => c
             | None => backup_cost
             end)
     | ONone | OInt _ | OStr _ => Raise AttributeError
     end)
    (fun cost =>
     PerUnit._calculate (min_trade_cost self) order transaction cost).

End PerContract.

Section Construction.

(** [float(s)] for a [str]: the interpreter's parser, [None] when the
    text is not a number. *)
Variable str_to_float : string -> option float.

(** [float(v)]. *)
Definition py_float (v : pyobj) : res float :=
  match v with
  | OFloat f => Ok f
  | OInt z => int_to_float z
  | OStr s => match str_to_float s with
              | Some f => Ok f
              | None => Raise ValueError
              end
  | ONone | ODict _ => Raise TypeError
  end.

Definition PerShare___init__ (cost min_cost : pyobj) : res PerShare.t :=
  bind (py_float cost) (fun c =>
  Ok {| PerShare.cost_per_share := c;
        PerShare.min_trade_cost := min_cost |}).

Definition PerTradeBase___init__ (cost : pyobj) : res PerTradeBase.t :=
  bind (py_float cost) (fun c => Ok {| PerTradeBase.cost := c |}).

Definition PerDollarBase___init__ (cost : pyobj) : res PerDollarBase.t :=
  bind (py_float cost) (fun c =>
  Ok {| PerDollarBase.cost_per_dollar := c |}).

End Construction.

(** The [float] of a returned number, as [+=] on a [float] takes it. *)
Definition to_float (n : pynum) : float :=
  match n with
  | NInt z => float_of_Z z
  | NFloat f => f
  end.

(** Modelled from the spec: the caller's bookkeeping between two calls,
    which is not part of this module: the returned charge is added to
    [order.commission] and the transaction's amount to [order.filled]. *)
Definition record_fill (order : Order) (transaction : Transaction)
    (charge : pynum) : Order :=
  {| commission := commission order + to_float charge;
     filled := filled order + amount transaction;
     asset := asset order |}.

(** Modelled from the spec: the caller's loop over the fills of one order;
    the result is the list of the charges returned. *)
Fixpoint charges (calculate : Order -> Transaction -> res pynum)
    (order : Order) (fills : list Transaction) : res (list pynum) :=
  match fills with
  | [] => Ok []
  | transaction :: rest =>
      bind (calculate order transaction) (fun charge =>
      bind (charges calculate (record_fill order transaction charge) rest)
        (fun later => Ok (charge :: later)))
  end.

Definition fresh_order (a : Asset) : Order :=
  {| commission := 0; filled := 0; asset := a |}.

Definition fill (a p : float) : Transaction :=
  {| amount := a; price := p |}.

End Runtime.

(** * Vocabulary of the statements *)

(** Case analysis on a maximum, leaving linear facts behind. *)
Ltac split_max a b :=
  let H := fresh "Hmax" in
  destruct (Q.max_spec a b) as [[? H] | [? H]].


(** What the order has been charged agrees with the policy: either nothing
    was charged and nothing is owed per unit, or the charged commission is
    [max(m, filled * r)]. *)
Definition settled (m r : Q) (o : Order) : Prop :=
  (commission o == 0 /\ filled o * r == 0) \/
  commission o == Qmax m (filled o * r).

(** Total of the magnitudes of the fills. *)
Definition total_filled (fills : list Transaction) : Q :=
  Qsum (map (fun t => Qabs (amount t)) fills).

(** The effective per-unit rate of the derivative specialization, in the
    words of the specification: a flat number is used directly; otherwise
    the symbol is looked up in the configured table, then in the default
    table by symbol, then the scalar default applies.  Values that are
    neither a number nor a table have no rate. *)
Definition effective_cost_per_unit (cost : pyval) (symbol : string)
    : option Q :=
  match cost with
  | PyFloat c => Some c
  | PyInt z => Some (inject_Z z)
  | PyDict table =>
      match table !! symbol with
      | Some c => Some c
      | None =>
          match DEFAULT_FUTURE_COST_BY_SYMBOL !! symbol with
          | Some c => Some c
          | None => Some DEFAULT_FUTURE_COST_PER_TRADE
          end
      end
  | PyNone => None
  end.

(** A policy as the constructors produce it from the documented argument
    types: the stored cost of a [PerContract] is a [float] or a table. *)
Definition configured (p : policy) : Prop :=
  match p with
  | PerContract pc =>
      match PerContract.cost_per_contract pc with
      | PyFloat _ | PyDict _ => True
      | _ => False
      end
  | _ => True
  end.

(** Minimum and rate of a unit-cost policy on a given order; [None] for
    the other policies. *)
Definition unit_cost_view (p : policy) (o : Order)
    : option (option Q * Q) :=
  match p with
  | PerShare ps =>
      Some (PerShare.min_trade_cost ps, PerShare.cost_per_share ps)
  | PerContract pc =>
      match PerContract.cost_per_contract pc with
      | PyFloat _ | PyDict _ =>
          option_map (pair (PerContract.min_trade_cost pc))
            (effective_cost_per_unit (PerContract.cost_per_contract pc)
               (root_symbol (asset o)))
      | _ => None
      end
  | _ => None
  end.





(** Number of non-zero entries of a list of charges. *)
Definition count_nonzero (l : list Q) : nat :=
  length (filter (fun q => negb (Qeq_bool q 0)) l).

(** ** Printing *)

(** Attributes of the instances.  [__init__] sets [cost_per_share] (or
    [cost_per_contract], [cost], [cost_per_dollar]) and, for the unit-cost
    classes, [min_trade_cost]; the classes themselves define methods only
    ([__init__], [__repr__], [_calculate], [calculate]). *)
Definition py_of_minimum (min_cost : option Q) : pyval :=
  match min_cost with
  | Some m => PyFloat m
  | None => PyNone
  end.

Definition PerShare_attrs (self : PerShare.t) : gmap string pyval :=
  {[ "cost_per_share"%string := PyFloat (PerShare.cost_per_share self);
     "min_trade_cost"%string := py_of_minimum (PerShare.min_trade_cost self) ]}.

Definition PerContract_attrs (self : PerContract.t) : gmap string pyval :=
  {[ "cost_per_contract"%string := PerContract.cost_per_contract self;
     "min_trade_cost"%string
       := py_of_minimum (PerContract.min_trade_cost self) ]}.

Definition PerDollarBase_attrs (self : PerDollarBase.t)
    : gmap string pyval :=
  {[ "cost_per_dollar"%string
       := PyFloat (PerDollarBase.cost_per_dollar self) ]}.

(** [self.name]: the attribute if the instance has it, [AttributeError]
    otherwise. *)
Definition getattr (attrs : gmap string pyval) (name : string)
    : res pyval :=
  match attrs !! name with
  | Some v => Ok v
  | None => Raise AttributeError
  end.

Section Repr.

(** How [str.format] renders a value in a replacement field; it belongs to
    the interpreter, not to this module. *)
Variable format_value : pyval -> string.

(** [PerUnit.__repr__]: the keyword arguments of [format] are evaluated
    from left to right, [self.cost_per_unit] before
    [self.min_trade_cost]. *)
Definition PerUnit___repr__ (class_name : string)
    (self : gmap string pyval) : res string :=
  bind (getattr self "cost_per_unit") (fun cost_per_unit =>
  bind (getattr self "min_trade_cost") (fun min_trade_cost =>
  Ok (class_name ++ "(cost_per_unit=" ++ format_value cost_per_unit
      ++ ", min_trade_cost=" ++ format_value min_trade_cost ++ ")")%string)).

(** [PerDollarBase.__repr__]. *)
Definition PerDollarBase___repr__ (class_name : string)
    (self : gmap string pyval) : res string :=
  bind (getattr self "cost_per_dollar") (fun cost =>
  Ok (class_name ++ "(cost_per_dollar=" ++ format_value cost ++ ")")%string).

End Repr.

(** * Properties *)

(** ** Concrete inputs *)

Example default_table_lookup :
  DEFAULT_FUTURE_COST_BY_SYMBOL !! "ES"%string = Some (235 # 100).
Proof. vm_compute. reflexivity. Qed.

(** ** Numbers *)

(** Python's [max] on two numbers is the mathematical maximum. *)
Lemma py_max_Qmax (a b : Q) : py_max a b == Qmax a b.
Proof.
  unfold py_max. destruct (Qlt_le_dec a b) as [Hlt | Hle].
  - symmetry. apply Q.max_r. lra.
  - symmetry. apply Q.max_l. exact Hle.
Qed.

Lemma Qeq_bool_false (x y : Q) : ~ x == y -> Qeq_bool x y = false.
Proof.
  intros Hne. destruct (Qeq_bool x y) eqn:E; [|reflexivity].
  apply Qeq_bool_eq in E. contradiction.
Qed.


(** The magnitude of a product ignores the sign of the first factor, as
    values and not only as numbers. *)
Lemma Qabs_mult_opp_l (a r : Q) : Qabs (- a * r) = Qabs (a * r).
Proof.
  destruct a as [an ad], r as [rn rd]. unfold Qabs, Qopp, Qmult. simpl.
  rewrite Z.mul_opp_l, Z.abs_opp. reflexivity.
Qed.

Lemma Qabs_opp_eq (a : Q) : Qabs (- a) = Qabs a.
Proof.
  destruct a as [an ad]. unfold Qabs, Qopp. simpl.
  rewrite Z.abs_opp. reflexivity.
Qed.

(** ** One call of the unit-cost computation *)

Section PerUnitCall.

Variables (m r : Q) (o : Order) (t : Transaction).

Let raw := Qabs (amount t * r).
Let running_total := filled o * r + raw.

Lemma per_unit_no_minimum :
  PerUnit._calculate None o t r = raw.
Proof. reflexivity. Qed.

Lemma per_unit_first_charge :
  commission o == 0 ->
  PerUnit._calculate (Some m) o t r == Qmax m raw.
Proof.
  intros Hc. unfold PerUnit._calculate.
  rewrite (Qeq_eq_bool _ _ Hc). apply py_max_Qmax.
Qed.

Lemma per_unit_below_minimum :
  ~ commission o == 0 -> running_total < m ->
  PerUnit._calculate (Some m) o t r == 0.
Proof.
  intros Hc Hlt. unfold PerUnit._calculate.
  rewrite (Qeq_bool_false _ _ Hc).
  destruct (Qlt_le_dec _ m) as [_ | Hle]; [reflexivity|].
  subst running_total raw. lra.
Qed.

Lemma per_unit_above_minimum :
  ~ commission o == 0 -> ~ running_total < m ->
  PerUnit._calculate (Some m) o t r == running_total - commission o.
Proof.
  intros Hc Hge. unfold PerUnit._calculate.
  rewrite (Qeq_bool_false _ _ Hc).
  destruct (Qlt_le_dec _ m) as [Hlt | _]; [|reflexivity].
  exfalso. apply Hge. exact Hlt.
Qed.

End PerUnitCall.

(** ** Unit-cost policy with a minimum: the charge of one call *)




(** ** Unit-cost policy with a minimum: a sequence of fills *)

Lemma Qsum_cons (x : Q) (l : list Q) : Qsum (x :: l) = x + Qsum l.
Proof. reflexivity. Qed.

(** On amounts that are not negative, summing magnitudes is summing. *)
Lemma Qsum_abs_nonneg (fills : list Transaction) :
  Forall (fun t => 0 <= amount t) fills ->
  Qsum (map (fun t => Qabs (amount t)) fills) == Qsum (map amount fills).
Proof.
  induction 1 as [| t rest Ht _ IH]; [reflexivity|].
  cbn [map]. rewrite !Qsum_cons, IH, (Qabs_pos _ Ht). reflexivity.
Qed.

Section BuySide.

Variables m r : Q.
Hypothesis r_nonneg : 0 <= r.

(** Step: from a settled order, a fill of a non-negative amount brings the
    charged commission to [max(m, (filled + amount) * r)]. *)
Lemma per_unit_step (o : Order) (t : Transaction) :
  0 <= filled o -> 0 <= amount t -> settled m r o ->
  commission o + PerUnit._calculate (Some m) o t r
  == Qmax m ((filled o + amount t) * r).
Proof.
  intros HF Ha Hs.
  assert (Hx : 0 <= filled o * r) by (apply Qmult_le_0_compat; assumption).
  assert (Hy : 0 <= amount t * r) by (apply Qmult_le_0_compat; assumption).
  assert (Hxy : (filled o + amount t) * r == filled o * r + amount t * r)
    by ring.
  rewrite Hxy.
  destruct (Qeq_dec (commission o) 0) as [Hc | Hc].
  - rewrite (per_unit_first_charge m r o t Hc), (Qabs_pos _ Hy).
    assert (Hzero : filled o * r == 0).
    { destruct Hs as [[_ H0] | Hmax]; [exact H0|].
      split_max m (filled o * r); lra. }
    split_max m (amount t * r);
      split_max m (filled o * r + amount t * r); lra.
  - destruct Hs as [[H0 _] | Hmax]; [contradiction|].
    destruct (Qlt_le_dec (filled o * r + Qabs (amount t * r)) m)
      as [Hlt | Hge].
    + rewrite (per_unit_below_minimum m r o t Hc Hlt).
      rewrite (Qabs_pos _ Hy) in Hlt.
      split_max m (filled o * r);
        split_max m (filled o * r + amount t * r); lra.
    + rewrite per_unit_above_minimum; [|exact Hc|lra].
      rewrite (Qabs_pos _ Hy) in *.
      split_max m (filled o * r + amount t * r); lra.
Qed.

Lemma settled_after_fill (o : Order) (t : Transaction) :
  0 <= filled o -> 0 <= amount t -> settled m r o ->
  settled m r (record_fill o t (PerUnit._calculate (Some m) o t r)).
Proof.
  intros HF Ha Hs. right. cbn [record_fill commission filled].
  apply per_unit_step; assumption.
Qed.

(** Run: along a sequence of non-negative fills every call returns, and
    after each non-empty prefix the order has been charged
    [max(m, filled_so_far * r)]. *)
Lemma per_share_run (fills : list Transaction) :
  Forall (fun t => 0 <= amount t) fills ->
  forall o : Order,
  0 <= filled o -> settled m r o ->
  exists cs,
    charges (PerShare {| PerShare.cost_per_share := r;
                         PerShare.min_trade_cost := Some m |}) o fills
    = Ok cs /\
    length cs = length fills /\
    forall n, (1 <= n <= length fills)%nat ->
      commission o + Qsum (firstn n cs)
      == Qmax m ((filled o + Qsum (map amount (firstn n fills))) * r).
Proof.
  induction 1 as [| t rest Ht Hrest IH]; intros o HF Hs.
  - exists []. repeat split. cbn. intros n Hn. lia.
  - set (c := PerUnit._calculate (Some m) o t r).
    destruct (IH (record_fill o t c)) as (cs & Hrun & Hlen & Hsum).
    { cbn [record_fill filled]. lra. }
    { apply settled_after_fill; assumption. }
    exists (c :: cs). split; [|split].
    + cbn [charges]. change (calculate _ o t) with (Ok c : res Q).
      cbn [bind]. rewrite Hrun. reflexivity.
    + cbn [length]. rewrite Hlen. reflexivity.
    + intros [| n] Hn; [lia|]. cbn [firstn map]. rewrite !Qsum_cons.
      destruct n as [| n].
      * rewrite !firstn_O. cbn [map Qsum fold_right].
        transitivity (Qmax m ((filled o + amount t) * r)).
        -- rewrite <- (per_unit_step o t HF Ht Hs). fold c. ring.
        -- apply Q.max_compat; [reflexivity | ring].
      * cbn [length] in Hn.
        specialize (Hsum (S n) ltac:(lia)).
        cbn [record_fill commission filled] in Hsum.
        rewrite Qplus_assoc, Hsum.
        apply Q.max_compat; [reflexivity | ring].
Qed.

End BuySide.

(** In exact arithmetic, on an order that only receives fills of
    non-negative amounts (a buy), starting from [commission = 0] and
    [filled = 0], every call returns and after every non-empty prefix of
    the fills the charges returned so far add up to
    [max(m, total_filled_so_far * r)].  On binary64 the sums agree up to
    the rounding of each operation only. *)
Theorem unit_cost_cumulative_buy_side (m r : Q) (o : Order)
    (fills : list Transaction) :
  0 <= r ->
  commission o == 0 -> filled o == 0 ->
  Forall (fun t => 0 <= amount t) fills ->
  exists cs,
    charges (PerShare {| PerShare.cost_per_share := r;
                         PerShare.min_trade_cost := Some m |}) o fills
    = Ok cs /\
    length cs = length fills /\
    forall n, (1 <= n <= length fills)%nat ->
      Qsum (firstn n cs) == Qmax m (total_filled (firstn n fills) * r).
Proof.
  intros Hr Hc HF Hfills.
  destruct (per_share_run m r Hr fills Hfills o) as (cs & Hrun & Hlen & Hsum).
  { lra. }
  { left. split; [exact Hc|]. rewrite HF. ring. }
  exists cs. split; [exact Hrun|]. split; [exact Hlen|].
  intros n Hn. specialize (Hsum n Hn).
  assert (Habs : total_filled (firstn n fills)
                 == Qsum (map amount (firstn n fills))).
  { apply Qsum_abs_nonneg. apply Forall_take. exact Hfills. }
  transitivity (commission o + Qsum (firstn n cs)); [rewrite Hc; ring|].
  rewrite Hsum. apply Q.max_compat; [reflexivity|].
  rewrite Habs, HF. ring.
Qed.

Lemma unit_cost_cumulative_buy_side_example :
  exists cs,
    charges (PerShare {| PerShare.cost_per_share := 75 # 10000;
                         PerShare.min_trade_cost := Some 1 |})
      (fresh_order {| root_symbol := "ES" |})
      [fill 50 10; fill 100 10; fill 250 10] = Ok cs /\
    Qsum cs == 3.
Proof.
  eexists. split; [reflexivity|]. vm_compute. reflexivity.
Qed.

(** C2 (failing input).  A sell order is filled in two transactions of
    amounts [-50] and [-100] under [PerShare(cost=0.0075,
    min_trade_cost=1.0)].  The first call charges the minimum [1.0]; at
    the second call [order.filled] is [-50], so the per-unit total is
    [-50 * 0.0075 + abs(-100 * 0.0075) = 0.375], below the minimum, and the
    call returns [0].  The charges add up to [1.0], whereas the per-unit
    cost of the 150 shares is [1.125]. *)
Theorem unit_cost_sell_side_undercharged :
  let policy := PerShare {| PerShare.cost_per_share := 75 # 10000;
                            PerShare.min_trade_cost := Some 1 |} in
  let fills := [fill (-50) 10; fill (-100) 10] in
  exists c1 c2,
    charges policy (fresh_order {| root_symbol := "ES" |}) fills
    = Ok [c1; c2] /\
    c1 == 1 /\ c2 == 0 /\
    Qmax 1 (total_filled fills * (75 # 10000)) == 1125 # 1000 /\
    ~ Qsum [c1; c2] == Qmax 1 (total_filled fills * (75 # 10000)).
Proof.
  cbv zeta. do 2 eexists. split; [reflexivity|].
  repeat split; try (vm_compute; reflexivity).
  vm_compute. discriminate.
Qed.

(** ** The rate of the contract policy *)

(** Every entry of the default table is [2.35]. *)
Lemma default_table_entries (symbol : string) (c : Q) :
  DEFAULT_FUTURE_COST_BY_SYMBOL !! symbol = Some c -> c = 235 # 100.
Proof.
  intros Hl. unfold DEFAULT_FUTURE_COST_BY_SYMBOL in Hl.
  apply elem_of_list_to_map_2 in Hl.
  apply list_elem_of_fmap in Hl as (s & Heq & _).
  congruence.
Qed.

(** C5.  [PerContract] built from any cost and then asked to calculate
    charges what the unit-cost computation gives at the effective rate:
    the configured table's entry for [order.asset.root_symbol] if there is
    one, otherwise the entry of [DEFAULT_FUTURE_COST_BY_SYMBOL], otherwise
    [DEFAULT_FUTURE_COST_PER_TRADE]; a flat number ([float], or [int]
    converted at construction) is the rate itself.  The rate is resolved at
    each call from the order of that call. *)
Theorem per_contract_effective_rate (cost : pyval) (min_cost : option Q)
    (o : Order) (t : Transaction) :
  bind (PerContract.__init__ cost min_cost)
       (fun self => calculate self o t)
  = match effective_cost_per_unit cost (root_symbol (asset o)) with
    | Some rate => Ok (PerUnit._calculate min_cost o t rate)
    | None => Raise AttributeError
    end.
Proof.
  destruct cost as [| z | c | table]; cbn; try reflexivity.
  unfold dict_get.
  destruct (table !! root_symbol (asset o)); [reflexivity|].
  destruct (DEFAULT_FUTURE_COST_BY_SYMBOL !! root_symbol (asset o));
    reflexivity.
Qed.

(** The three levels of the chain on concrete symbols: ["ES"] is in the
    configured table; ["CL"] only in the default table; ["ZZ"] in
    neither. *)
Example per_contract_fallback_chain :
  let table : gmap string Q := {[ "ES"%string := 1 # 2 ]} in
  effective_cost_per_unit (PyDict table) "ES" = Some (1 # 2) /\
  effective_cost_per_unit (PyDict table) "CL" = Some (235 # 100) /\
  effective_cost_per_unit (PyDict table) "ZZ"
  = Some DEFAULT_FUTURE_COST_PER_TRADE.
Proof. vm_compute. repeat split. Qed.

(** ** Views shared by the statements about every policy *)

Lemma unit_cost_view_calculate (p : policy) (o : Order) (t : Transaction)
    (min_cost : option Q) (rate : Q) :
  unit_cost_view p o = Some (min_cost, rate) ->
  calculate p o t = Ok (PerUnit._calculate min_cost o t rate).
Proof.
  destruct p as [ps | pc | pt | pt | pd | pd]; cbn; try discriminate.
  - intros [= <- <-]. reflexivity.
  - destruct pc as [cost mc]. cbn.
    destruct cost as [| z | c | table]; cbn; try discriminate.
    + intros [= <- <-]. reflexivity.
    + unfold dict_get.
      destruct (table !! root_symbol (asset o)); cbn.
      * intros [= <- <-]. reflexivity.
      * destruct (DEFAULT_FUTURE_COST_BY_SYMBOL !! root_symbol (asset o));
          cbn; intros [= <- <-]; reflexivity.
Qed.

Lemma unit_cost_view_configured (pc : PerContract.t) (o : Order) :
  configured (PerContract pc) ->
  exists rate,
    unit_cost_view (PerContract pc) o
    = Some (PerContract.min_trade_cost pc, rate).
Proof.
  destruct pc as [cost mc]. cbn.
  destruct cost as [| z | c | table]; cbn; try contradiction; intros _.
  - eexists. reflexivity.
  - destruct (table !! root_symbol (asset o)); cbn; [eexists; reflexivity|].
    destruct (DEFAULT_FUTURE_COST_BY_SYMBOL !! root_symbol (asset o));
      cbn; eexists; reflexivity.
Qed.

(** A configured policy never raises. *)
Lemma configured_calculate_returns (p : policy) (o : Order)
    (t : Transaction) :
  configured p -> exists v, calculate p o t = Ok v.
Proof.
  intros Hp. destruct p as [ps | pc | pt | pt | pd | pd];
    try (eexists; reflexivity).
  - destruct (unit_cost_view_configured pc o Hp) as [rate Hv].
    rewrite (unit_cost_view_calculate _ o t _ _ Hv). eexists. reflexivity.
  - change (calculate (PerEquityTrade pt) o t)
      with (PerTradeBase.calculate pt o t).
    unfold PerTradeBase.calculate.
    destruct (Qeq_bool _ _); eexists; reflexivity.
  - change (calculate (PerFutureTrade pt) o t)
      with (PerTradeBase.calculate pt o t).
    unfold PerTradeBase.calculate.
    destruct (Qeq_bool _ _); eexists; reflexivity.
Qed.

(** ** Zero-amount transactions *)





(** ** Sign of the charge *)





(** ** Flat-trade policy *)

(** [PerEquityTrade] and [PerFutureTrade] inherit [calculate] unchanged
    from [PerTradeBase]. *)
Lemma flat_trade_classes (pt : PerTradeBase.t) (o : Order) (t : Transaction) :
  calculate (PerEquityTrade pt) o t = calculate pt o t /\
  calculate (PerFutureTrade pt) o t = calculate pt o t.
Proof. split; reflexivity. Qed.

Lemma flat_trade_call (pt : PerTradeBase.t) (o : Order) (t : Transaction) :
  calculate pt o t
  = Ok (if Qeq_bool (commission o) 0 then PerTradeBase.cost pt else 0).
Proof.
  change (calculate pt o t) with (PerTradeBase.calculate pt o t).
  unfold PerTradeBase.calculate. destruct (Qeq_bool _ _); reflexivity.
Qed.

Lemma count_nonzero_zeros (n : nat) : count_nonzero (repeat 0 n) = 0%nat.
Proof.
  unfold count_nonzero. induction n as [| n IH]; [reflexivity|].
  cbn [repeat]. rewrite filter_cons.
  destruct (decide _) as [H | _]; [|exact IH].
  exfalso. revert H. vm_compute. exact (fun H => H).
Qed.

(** Once a commission is on the order, every later call returns [0]. *)
Lemma flat_trade_after_first (pt : PerTradeBase.t)
    (rest : list Transaction) :
  forall o : Order,
  ~ commission o == 0 ->
  charges pt o rest = Ok (repeat 0 (length rest)).
Proof.
  induction rest as [| t rest IH]; intros o Hc; [reflexivity|].
  cbn [charges]. rewrite flat_trade_call, (Qeq_bool_false _ _ Hc).
  cbn [bind]. rewrite IH; [reflexivity|].
  cbn [record_fill commission]. lra.
Qed.

(** With a cost equal to zero the order never leaves the state
    [commission == 0], and every call returns the cost. *)
Lemma flat_trade_zero_cost (pt : PerTradeBase.t) (fills : list Transaction) :
  PerTradeBase.cost pt == 0 ->
  forall o : Order,
  commission o == 0 ->
  charges pt o fills = Ok (repeat (PerTradeBase.cost pt) (length fills)).
Proof.
  intros Hcost. induction fills as [| t rest IH]; intros o Hc; [reflexivity|].
  cbn [charges]. rewrite flat_trade_call, (Qeq_eq_bool _ _ Hc).
  cbn [bind]. rewrite IH; [reflexivity|].
  cbn [record_fill commission]. lra.
Qed.

(** C6 (amended).  The flat-trade policy with cost [c] returns [c] when
    [order.commission == 0] and [0.0] otherwise.  When [c] is not zero,
    along any non-empty sequence of calls for one order that starts at
    [commission == 0] and accumulates the returned charges, the first call
    returns [c] and every later call returns [0.0]: exactly one result is
    not zero. *)
Theorem flat_trade_charged_once (pt : PerTradeBase.t) (o : Order)
    (t : Transaction) (rest : list Transaction) :
  commission o == 0 ->
  ~ PerTradeBase.cost pt == 0 ->
  (forall (o' : Order) (t' : Transaction),
     calculate pt o' t'
     = Ok (if Qeq_bool (commission o') 0 then PerTradeBase.cost pt else 0)) /\
  exists cs,
    charges pt o (t :: rest) = Ok cs /\
    cs = PerTradeBase.cost pt :: repeat 0 (length rest) /\
    count_nonzero cs = 1%nat.
Proof.
  intros Hc Hcost. split; [intros o' t'; apply flat_trade_call|].
  eexists. split; [|split; [reflexivity|]].
  - cbn [charges]. rewrite flat_trade_call, (Qeq_eq_bool _ _ Hc).
    cbn [bind]. rewrite flat_trade_after_first; [reflexivity|].
    cbn [record_fill commission]. lra.
  - unfold count_nonzero. rewrite filter_cons.
    destruct (decide _) as [_ | H].
    + cbn [length]. f_equal. apply count_nonzero_zeros.
    + exfalso. apply H. rewrite (Qeq_bool_false _ _ Hcost). exact I.
Qed.

Lemma flat_trade_charged_once_witness :
  let pt := {| PerTradeBase.cost := 5 |} in
  let o := fresh_order {| root_symbol := "ES" |} in
  (commission o == 0 /\ ~ PerTradeBase.cost pt == 0) /\
  exists cs,
    charges pt o [fill 10 20; fill 30 20; fill (-5) 20] = Ok cs /\
    cs = [5; 0; 0] /\
    count_nonzero cs = 1%nat.
Proof.
  cbv zeta. split; [split; [reflexivity | discriminate]|].
  apply (flat_trade_charged_once {| PerTradeBase.cost := 5 |}
           (fresh_order {| root_symbol := "ES" |})
           (fill 10 20) [fill 30 20; fill (-5) 20]).
  - reflexivity.
  - discriminate.
Defined.

(** C6 as stated fails for a cost of zero: [PerEquityTrade(cost=0.0)]
    returns [0.0] at every call, so no call returns a non-zero result. *)
Lemma flat_trade_zero_cost_counterexample :
  exists pt cs,
    PerEquityTrade.__init__ (PyFloat 0) = Ok pt /\
    charges pt (fresh_order {| root_symbol := "ES" |})
      [fill 10 20; fill 30 20] = Ok cs /\
    cs = [0; 0] /\
    count_nonzero cs <> 1%nat.
Proof.
  do 2 eexists. split; [reflexivity|]. split; [reflexivity|].
  split; [reflexivity|]. vm_compute. discriminate.
Qed.

(** C10.  The flat-trade policy ignores the transaction: for a fixed
    policy and order any two transactions are charged the same, under
    [PerEquityTrade] and under [PerFutureTrade]; the result is determined
    by [order.commission] and the configured cost. *)
Theorem flat_trade_ignores_transaction (pt : PerTradeBase.t) (o : Order)
    (t1 t2 : Transaction) :
  calculate (PerEquityTrade pt) o t1 = calculate (PerEquityTrade pt) o t2 /\
  calculate (PerFutureTrade pt) o t1 = calculate (PerFutureTrade pt) o t2 /\
  calculate (PerEquityTrade pt) o t1
  = Ok (if Qeq_bool (commission o) 0 then PerTradeBase.cost pt else 0).
Proof.
  destruct (flat_trade_classes pt o t1) as [-> ->].
  destruct (flat_trade_classes pt o t2) as [-> ->].
  rewrite !flat_trade_call. repeat split.
Qed.

(** ** Proportional-value policy *)

Lemma per_dollar_call (pd : PerDollarBase.t) (o : Order) (t : Transaction) :
  calculate pd o t
  = Ok (Qabs (amount t) * (price t * PerDollarBase.cost_per_dollar pd)).
Proof. reflexivity. Qed.

Lemma per_dollar_run (pd : PerDollarBase.t) (fills : list Transaction) :
  forall o : Order,
  charges (PerEquityDollar pd) o fills
  = Ok (map (fun t => Qabs (amount t)
                      * (price t * PerDollarBase.cost_per_dollar pd)) fills).
Proof.
  induction fills as [| t rest IH]; intros o; [reflexivity|].
  cbn [charges].
  change (calculate (PerEquityDollar pd) o t) with (calculate pd o t).
  rewrite per_dollar_call. cbn [bind]. rewrite IH. reflexivity.
Qed.

(** C7 (amended).  The proportional-value policy returns
    [abs(amount) * (price * cost_per_dollar)], the per-share cost
    [price * cost_per_dollar] being computed first and each product rounded
    to binary64; [PerEquityDollar] and [PerFutureDollar] inherit the method
    unchanged.  The result is the same for any two orders, and along a
    sequence of fills each charge is that of its own transaction, whatever
    was charged or filled before.  In exact arithmetic the value is
    [|amount| * price * cost_per_dollar]. *)
Theorem per_dollar_calculate (pd : Runtime.PerDollarBase.t)
    (o : Runtime.Order) (t : Runtime.Transaction) :
  Runtime.PerDollarBase.calculate pd o t
  = Ok (Runtime.NFloat
          (PrimFloat.mul (PrimFloat.abs (Runtime.amount t))
             (PrimFloat.mul (Runtime.price t)
                (Runtime.PerDollarBase.cost_per_dollar pd)))) /\
  (forall o' : Runtime.Order,
     Runtime.PerDollarBase.calculate pd o' t
     = Runtime.PerDollarBase.calculate pd o t) /\
  (forall fills : list Runtime.Transaction,
     Runtime.charges (Runtime.PerDollarBase.calculate pd) o fills
     = Ok (map (fun t' =>
                  Runtime.NFloat
                    (PrimFloat.mul (PrimFloat.abs (Runtime.amount t'))
                       (PrimFloat.mul (Runtime.price t')
                          (Runtime.PerDollarBase.cost_per_dollar pd))))
             fills)) /\
  (forall (qd : PerDollarBase.t) (qo : Order) (qt : Transaction),
     exists v,
       calculate (PerEquityDollar qd) qo qt = Ok v /\
       calculate (PerFutureDollar qd) qo qt = Ok v /\
       v == Qabs (amount qt) * price qt * PerDollarBase.cost_per_dollar qd).
Proof.
  split; [reflexivity|]. split; [reflexivity|]. split.
  - intros fills. revert o.
    induction fills as [| t' rest IH]; intros o; [reflexivity|].
    cbn [Runtime.charges Runtime.PerDollarBase.calculate bind map].
    rewrite IH. reflexivity.
  - intros qd qo qt. eexists.
    split; [reflexivity|]. split; [reflexivity|]. ring.
Qed.

(** C7 as stated fails on binary64: under [PerDollar(cost=0.0015)] a
    fill of amount [-30] at price [20] is charged
    [30 * (20 * 0.0015) = 0.8999999999999999], whereas
    [abs(amount) * price * cost_per_dollar] evaluates to [0.9]. *)
Lemma per_dollar_rounding_counterexample :
  let pd := {| Runtime.PerDollarBase.cost_per_dollar := 0.0015 |} in
  let o := Runtime.fresh_order {| root_symbol := "ES" |} in
  let t := Runtime.fill (-30) 20 in
  let claimed :=
    PrimFloat.mul
      (PrimFloat.mul (PrimFloat.abs (Runtime.amount t)) (Runtime.price t))
      (Runtime.PerDollarBase.cost_per_dollar pd) in
  exists v,
    Runtime.PerDollarBase.calculate pd o t = Ok (Runtime.NFloat v) /\
    v = 0.8999999999999999%float /\
    claimed = 0.9%float /\
    PrimFloat.eqb v claimed = false /\
    v <> claimed.
Proof.
  cbv zeta. eexists. split; [reflexivity|].
  split; [vm_compute; reflexivity|].
  split; [vm_compute; reflexivity|].
  split; [vm_compute; reflexivity|].
  intros H.
  apply (f_equal (fun x => PrimFloat.eqb x 0.9%float)) in H.
  vm_compute in H. discriminate.
Qed.

(** ** Sign of the amount *)

(** C9.  For every policy, order and price, a transaction of amount [a]
    and one of amount [-a] give the same result. *)
Theorem calculate_amount_sign (p : policy) (o : Order) (a pr : Q) :
  calculate p o (fill a pr) = calculate p o (fill (- a) pr).
Proof.
  assert (Hunit : forall mc r,
    PerUnit._calculate mc o (fill a pr) r
    = PerUnit._calculate mc o (fill (- a) pr) r).
  { intros mc r. unfold PerUnit._calculate. cbn [fill amount].
    rewrite Qabs_mult_opp_l. reflexivity. }
  destruct p as [ps | pc | pt | pt | pd | pd].
  - change (Ok (PerUnit._calculate (PerShare.min_trade_cost ps) o
                  (fill a pr) (PerShare.cost_per_share ps))
            = Ok (PerUnit._calculate (PerShare.min_trade_cost ps) o
                    (fill (- a) pr) (PerShare.cost_per_share ps))).
    rewrite Hunit. reflexivity.
  - change (PerContract.calculate pc o (fill a pr)
            = PerContract.calculate pc o (fill (- a) pr)).
    unfold PerContract.calculate.
    destruct (match PerContract.cost_per_contract pc with
              | PyFloat c => Ok c
              | _ => _
              end) as [cost | e]; cbn [bind]; [|reflexivity].
    rewrite Hunit. reflexivity.
  - destruct (flat_trade_classes pt o (fill a pr)) as [-> _].
    destruct (flat_trade_classes pt o (fill (- a) pr)) as [-> _].
    rewrite !flat_trade_call. reflexivity.
  - destruct (flat_trade_classes pt o (fill a pr)) as [_ ->].
    destruct (flat_trade_classes pt o (fill (- a) pr)) as [_ ->].
    rewrite !flat_trade_call. reflexivity.
  - change (Ok (Qabs a * (pr * PerDollarBase.cost_per_dollar pd))
            = Ok (Qabs (- a) * (pr * PerDollarBase.cost_per_dollar pd))).
    rewrite Qabs_opp_eq. reflexivity.
  - change (Ok (Qabs a * (pr * PerDollarBase.cost_per_dollar pd))
            = Ok (Qabs (- a) * (pr * PerDollarBase.cost_per_dollar pd))).
    rewrite Qabs_opp_eq. reflexivity.
Qed.

(** ** Construction *)

Lemma runtime_per_unit_float_minimum (c m : float) (o : Runtime.Order)
    (t : Runtime.Transaction) :
  exists v, Runtime.PerUnit._calculate (Runtime.OFloat m) o t c = Ok v.
Proof.
  unfold Runtime.PerUnit._calculate, Runtime.py_max, Runtime.float_gt,
    Runtime.float_lt, Runtime.number_of.
  destruct (PrimFloat.eqb (Runtime.commission o) 0); cbn [bind].
  - destruct (PrimFloat.ltb m _); eexists; reflexivity.
  - destruct (PrimFloat.ltb _ m); eexists; reflexivity.
Qed.

Lemma runtime_per_unit_bad_minimum (c : float) (min_cost : Runtime.pyobj)
    (o : Runtime.Order) (t : Runtime.Transaction) :
  match min_cost with
  | Runtime.OStr _ | Runtime.ODict _ =>
      Runtime.PerUnit._calculate min_cost o t c = Raise TypeError
  | _ => True
  end.
Proof.
  destruct min_cost; try exact I;
    unfold Runtime.PerUnit._calculate, Runtime.py_max, Runtime.float_gt,
      Runtime.float_lt;
    destruct (PrimFloat.eqb (Runtime.commission o) 0); reflexivity.
Qed.

(** C8 (amended).  No constructor looks at the sign of its arguments, and
    the only check at construction is the conversion [float(cost)].
    [PerShare], [PerTradeBase] ([PerEquityTrade], [PerFutureTrade]) and
    [PerDollarBase] ([PerEquityDollar], [PerFutureDollar]) are constructed
    exactly when [float(cost)] succeeds, and fail with its exception
    otherwise: [TypeError] for [None] and a [dict], [ValueError] for a
    [str] that is not the text of a number, [OverflowError] for an [int]
    beyond the range of [float].  [PerContract] converts an [int] cost, so
    fails only on such an overflow, and stores any other cost as given;
    [min_trade_cost] is always stored as given.  With a [float] cost
    and a [float] minimum of any sign, every policy is constructed and its
    calculation returns, on every order and transaction with [float]
    fields.  A [str] or [dict] minimum is accepted by [PerShare] and by
    [PerContract] (with a [float] cost), and every calculation then fails
    with [TypeError]; a [None] or [str] cost is accepted by [PerContract],
    and every calculation then fails with [AttributeError]. *)
Theorem construction_checks (str_to_float : string -> option float) :
  (forall cost min_cost : Runtime.pyobj,
     match Runtime.py_float str_to_float cost with
     | Ok c =>
         Runtime.PerShare___init__ str_to_float cost min_cost
         = Ok {| Runtime.PerShare.cost_per_share := c;
                 Runtime.PerShare.min_trade_cost := min_cost |} /\
         Runtime.PerTradeBase___init__ str_to_float cost
         = Ok {| Runtime.PerTradeBase.cost := c |} /\
         Runtime.PerDollarBase___init__ str_to_float cost
         = Ok {| Runtime.PerDollarBase.cost_per_dollar := c |}
     | Raise e =>
         Runtime.PerShare___init__ str_to_float cost min_cost = Raise e /\
         Runtime.PerTradeBase___init__ str_to_float cost = Raise e /\
         Runtime.PerDollarBase___init__ str_to_float cost = Raise e
     end) /\
  (forall cost : Runtime.pyobj,
     Runtime.py_float str_to_float cost
     = match cost with
       | Runtime.OFloat f => Ok f
       | Runtime.OInt z =>
           if PrimFloat.is_infinity (Runtime.float_of_Z z)
           then Raise OverflowError else Ok (Runtime.float_of_Z z)
       | Runtime.OStr s =>
           match str_to_float s with
           | Some f => Ok f
           | None => Raise ValueError
           end
       | Runtime.ONone | Runtime.ODict _ => Raise TypeError
       end) /\
  Runtime.py_float str_to_float (Runtime.OInt (10 ^ 400))
  = Raise OverflowError /\
  (forall cost min_cost : Runtime.pyobj,
     Runtime.PerContract.__init__ cost min_cost
     = match cost with
       | Runtime.OInt z =>
           if PrimFloat.is_infinity (Runtime.float_of_Z z)
           then Raise OverflowError
           else Ok {| Runtime.PerContract.cost_per_contract
                        := Runtime.OFloat (Runtime.float_of_Z z);
                      Runtime.PerContract.min_trade_cost := min_cost |}
       | _ => Ok {| Runtime.PerContract.cost_per_contract := cost;
                    Runtime.PerContract.min_trade_cost := min_cost |}
       end) /\
  (forall (c m : float) (o : Runtime.Order) (t : Runtime.Transaction),
     exists v1 v2 v3 v4,
       bind (Runtime.PerShare___init__ str_to_float (Runtime.OFloat c)
               (Runtime.OFloat m))
            (fun self => Runtime.PerShare.calculate self o t) = Ok v1 /\
       bind (Runtime.PerContract.__init__ (Runtime.OFloat c)
               (Runtime.OFloat m))
            (fun self => Runtime.PerContract.calculate self o t) = Ok v2 /\
       bind (Runtime.PerTradeBase___init__ str_to_float (Runtime.OFloat c))
            (fun self => Runtime.PerTradeBase.calculate self o t) = Ok v3 /\
       bind (Runtime.PerDollarBase___init__ str_to_float (Runtime.OFloat c))
            (fun self => Runtime.PerDollarBase.calculate self o t) = Ok v4) /\
  (forall (c : float) (min_cost : Runtime.pyobj) (o : Runtime.Order)
          (t : Runtime.Transaction),
     match min_cost with
     | Runtime.OStr _ | Runtime.ODict _ =>
         bind (Runtime.PerShare___init__ str_to_float (Runtime.OFloat c)
                 min_cost)
              (fun self => Runtime.PerShare.calculate self o t)
         = Raise TypeError /\
         (exists ps,
            Runtime.PerShare___init__ str_to_float (Runtime.OFloat c) min_cost
            = Ok ps) /\
         bind (Runtime.PerContract.__init__ (Runtime.OFloat c) min_cost)
              (fun self => Runtime.PerContract.calculate self o t)
         = Raise TypeError /\
         (exists pc,
            Runtime.PerContract.__init__ (Runtime.OFloat c) min_cost = Ok pc)
     | _ => True
     end) /\
  (forall (cost min_cost : Runtime.pyobj) (o : Runtime.Order)
          (t : Runtime.Transaction),
     match cost with
     | Runtime.ONone | Runtime.OStr _ =>
         bind (Runtime.PerContract.__init__ cost min_cost)
              (fun self => Runtime.PerContract.calculate self o t)
         = Raise AttributeError /\
         (exists pc, Runtime.PerContract.__init__ cost min_cost = Ok pc)
     | _ => True
     end).
Proof.
  split; [|split; [|split; [|split; [|split; [|split]]]]].
  - intros cost min_cost.
    unfold Runtime.PerShare___init__, Runtime.PerTradeBase___init__,
      Runtime.PerDollarBase___init__.
    destruct (Runtime.py_float str_to_float cost); repeat split.
  - intros cost. destruct cost; reflexivity.
  - vm_compute. reflexivity.
  - intros cost min_cost. destruct cost; try reflexivity.
    unfold Runtime.PerContract.__init__, Runtime.int_to_float.
    destruct (PrimFloat.is_infinity (Runtime.float_of_Z z)); reflexivity.
  - intros c m o t.
    destruct (runtime_per_unit_float_minimum c m o t) as [v Hv].
    exists v, v.
    assert (Hflat : exists v3,
              Runtime.PerTradeBase.calculate
                {| Runtime.PerTradeBase.cost := c |} o t = Ok v3).
    { unfold Runtime.PerTradeBase.calculate.
      destruct (PrimFloat.eqb (Runtime.commission o) 0);
        eexists; reflexivity. }
    destruct Hflat as [v3 Hv3]. exists v3. eexists.
    split; [exact Hv|]. split; [exact Hv|]. split; [exact Hv3 | reflexivity].
  - intros c min_cost o t.
    pose proof (runtime_per_unit_bad_minimum c min_cost o t) as Hbad.
    destruct min_cost; try exact I;
      (split; [exact Hbad|]; split; [eexists; reflexivity|];
       split; [exact Hbad | eexists; reflexivity]).
  - intros cost min_cost o t.
    destruct cost; try exact I; (split; [reflexivity | eexists; reflexivity]).
Qed.

(** C8 as stated fails.  A negative cost and a negative minimum are
    accepted by every constructor.  A [str] minimum is accepted by
    [PerShare] and the calculation fails with [TypeError]; a cost [None]
    is accepted by [PerContract] and the calculation fails with
    [AttributeError]. *)
Lemma construction_counterexample :
  let parse : string -> option float := fun _ => None in
  let o := Runtime.fresh_order {| root_symbol := "ES" |} in
  let t := Runtime.fill 50 10 in
  (exists ps,
     Runtime.PerShare___init__ parse (Runtime.OFloat (-1)) (Runtime.OFloat (-1))
     = Ok ps /\
     PrimFloat.ltb (Runtime.PerShare.cost_per_share ps) 0 = true) /\
  (exists pc,
     Runtime.PerContract.__init__ (Runtime.OFloat (-1)) (Runtime.OFloat (-1))
     = Ok pc) /\
  (exists pt,
     Runtime.PerTradeBase___init__ parse (Runtime.OFloat (-5)) = Ok pt /\
     PrimFloat.ltb (Runtime.PerTradeBase.cost pt) 0 = true) /\
  (exists pd,
     Runtime.PerDollarBase___init__ parse (Runtime.OFloat (-1)) = Ok pd /\
     PrimFloat.ltb (Runtime.PerDollarBase.cost_per_dollar pd) 0 = true) /\
  (exists ps,
     Runtime.PerShare___init__ parse (Runtime.OFloat 0.0075)
       (Runtime.OStr "1.0") = Ok ps /\
     Runtime.PerShare.calculate ps o t = Raise TypeError) /\
  (exists pc,
     Runtime.PerContract.__init__ Runtime.ONone (Runtime.OFloat 1) = Ok pc /\
     Runtime.PerContract.calculate pc o t = Raise AttributeError).
Proof.
  cbv zeta.
  split; [eexists; split; [reflexivity | vm_compute; reflexivity]|].
  split; [eexists; reflexivity|].
  split; [eexists; split; [reflexivity | vm_compute; reflexivity]|].
  split; [eexists; split; [reflexivity | vm_compute; reflexivity]|].
  split; [eexists; split; [reflexivity | vm_compute; reflexivity]|].
  eexists. split; [reflexivity | vm_compute; reflexivity].
Qed.

(** ** The worked examples on binary64 *)

(** The two fills of the unit-cost example are charged [1.0] and [0.125]
    exactly. *)
Lemma unit_cost_example_binary64 :
  let ps := {| Runtime.PerShare.cost_per_share := 0.0075;
               Runtime.PerShare.min_trade_cost := Runtime.OFloat 1 |} in
  Runtime.charges (Runtime.PerShare.calculate ps)
    (Runtime.fresh_order {| root_symbol := "ES" |})
    [Runtime.fill 50 10; Runtime.fill 100 10]
  = Ok [Runtime.NFloat 1; Runtime.NFloat 0.125].
Proof. vm_compute. reflexivity. Qed.

(** The sell order of C2: the second fill is charged nothing. *)
Lemma sell_side_undercharged_binary64 :
  let ps := {| Runtime.PerShare.cost_per_share := 0.0075;
               Runtime.PerShare.min_trade_cost := Runtime.OFloat 1 |} in
  Runtime.charges (Runtime.PerShare.calculate ps)
    (Runtime.fresh_order {| root_symbol := "ES" |})
    [Runtime.fill (-50) 10; Runtime.fill (-100) 10]
  = Ok [Runtime.NFloat 1; Runtime.NInt 0].
Proof. vm_compute. reflexivity. Qed.

(** * Further properties of the module *)

(** ** Sums and runs *)

Lemma Qsum_repeat_zero (c : Q) (n : nat) :
  c == 0 -> Qsum (repeat c n) == 0.
Proof.
  intros Hc. induction n as [| n IH]; [reflexivity|].
  cbn [repeat]. rewrite Qsum_cons, IH, Hc. reflexivity.
Qed.

(** Two models that answer every call alike return the same charges along
    every sequence of fills. *)
Lemma charges_ext {M N : Type} `{CommissionModel M} `{CommissionModel N}
    (m : M) (n : N) :
  (forall o t, calculate m o t = calculate n o t) ->
  forall fills o, charges m o fills = charges n o fills.
Proof.
  intros Hcall. induction fills as [| t rest IH]; intros o; [reflexivity|].
  cbn [charges]. rewrite Hcall.
  destruct (calculate n o t) as [c | e]; cbn [bind]; [|reflexivity].
  rewrite IH. reflexivity.
Qed.

(** ** Unit-cost policy without a minimum *)

(** X1.  Without a minimum, [PerShare] and [PerContract] with a flat
    rate charge [abs(amount * cost)] for each fill, whatever the order has
    been charged or filled before: along any sequence of fills, on any
    order, the charges are those of the transactions one by one. *)
Theorem per_share_no_minimum_run (r : float) (o : Runtime.Order)
    (fills : list Runtime.Transaction) :
  Runtime.charges
    (Runtime.PerShare.calculate
       {| Runtime.PerShare.cost_per_share := r;
          Runtime.PerShare.min_trade_cost := Runtime.ONone |}) o fills
  = Ok (map (fun t => Runtime.NFloat
                        (PrimFloat.abs (PrimFloat.mul (Runtime.amount t) r)))
          fills) /\
  Runtime.charges
    (Runtime.PerContract.calculate
       {| Runtime.PerContract.cost_per_contract := Runtime.OFloat r;
          Runtime.PerContract.min_trade_cost := Runtime.ONone |}) o fills
  = Ok (map (fun t => Runtime.NFloat
                        (PrimFloat.abs (PrimFloat.mul (Runtime.amount t) r)))
          fills).
Proof.
  revert o. induction fills as [| t rest IH]; intros o.
  - split; reflexivity.
  - destruct (IH (Runtime.record_fill o t
                    (Runtime.NFloat
                       (PrimFloat.abs (PrimFloat.mul (Runtime.amount t) r)))))
      as [IHs IHc].
    split.
    + cbn [Runtime.charges map].
      change (Runtime.PerShare.calculate _ o t)
        with (Ok (Runtime.NFloat
                    (PrimFloat.abs (PrimFloat.mul (Runtime.amount t) r)))
              : res Runtime.pynum).
      cbn [bind]. rewrite IHs. reflexivity.
    + cbn [Runtime.charges map].
      change (Runtime.PerContract.calculate _ o t)
        with (Ok (Runtime.NFloat
                    (PrimFloat.abs (PrimFloat.mul (Runtime.amount t) r)))
              : res Runtime.pynum).
      cbn [bind]. rewrite IHc. reflexivity.
Qed.

(** ** Unit-cost policy with a minimum, buy side *)

Section BuySideCharges.

Variables m r : Q.
Hypothesis r_nonneg : 0 <= r.

Lemma settled_commission_within (o : Order) (t : Transaction) :
  0 <= filled o -> settled m r o ->
  commission o <= Qmax m (filled o * r + Qabs (amount t * r)).
Proof.
  intros HF Hs.
  assert (Hx : 0 <= filled o * r) by (apply Qmult_le_0_compat; assumption).
  pose proof (Qabs_nonneg (amount t * r)) as Hraw.
  destruct Hs as [[Hc _] | Hc]; rewrite Hc.
  - pose proof (Q.le_max_r m (filled o * r + Qabs (amount t * r))). lra.
  - apply Q.max_le_compat_l. lra.
Qed.

End BuySideCharges.

(** X5.  A zero-amount transaction costs nothing on an order that is in
    step with the policy: when [order.commission] is
    [max(m, filled * r)], with [filled] and [r] not negative, [PerShare]
    with minimum [m] returns a charge equal to zero. *)
Theorem zero_amount_in_step (m r : Q) (o : Order) (t : Transaction) :
  0 <= r -> 0 <= filled o ->
  commission o == Qmax m (filled o * r) ->
  amount t == 0 ->
  exists v,
    calculate (PerShare {| PerShare.cost_per_share := r;
                           PerShare.min_trade_cost := Some m |}) o t = Ok v /\
    v == 0.
Proof.
  intros Hr HF Hc Ha.
  exists (PerUnit._calculate (Some m) o t r). split; [reflexivity|].
  assert (Ha' : 0 <= amount t) by lra.
  pose proof (per_unit_step m r Hr o t HF Ha' (or_intror Hc)) as Hstep.
  assert (E : Qmax m ((filled o + amount t) * r) == Qmax m (filled o * r)).
  { apply Q.max_compat; [reflexivity|]. rewrite Ha. ring. }
  rewrite E in Hstep. lra.
Qed.

Lemma zero_amount_in_step_witness :
  let o := {| commission := 1; filled := 50;
              asset := {| root_symbol := "ES" |} |} in
  let t := fill 0 10 in
  (0 <= 75 # 10000 /\ 0 <= filled o /\
   commission o == Qmax 1 (filled o * (75 # 10000)) /\ amount t == 0) /\
  exists v,
    calculate (PerShare {| PerShare.cost_per_share := 75 # 10000;
                           PerShare.min_trade_cost := Some 1 |}) o t = Ok v /\
    v == 0.
Proof.
  cbv zeta. split.
  - split; [vm_compute; discriminate|].
    split; [vm_compute; discriminate|].
    split; [vm_compute; reflexivity | reflexivity].
  - apply (zero_amount_in_step 1 (75 # 10000)
             {| commission := 1; filled := 50;
                asset := {| root_symbol := "ES" |} |} (fill 0 10)).
    + vm_compute. discriminate.
    + vm_compute. discriminate.
    + vm_compute. reflexivity.
    + reflexivity.
Defined.

(** ** Flat-trade policy: totals *)

Lemma flat_trade_run_total (pt : PerTradeBase.t) (o : Order)
    (t : Transaction) (rest : list Transaction) :
  commission o == 0 ->
  exists cs,
    charges pt o (t :: rest) = Ok cs /\ Qsum cs == PerTradeBase.cost pt.
Proof.
  intros Hc. destruct (Qeq_dec (PerTradeBase.cost pt) 0) as [Hz | Hnz].
  - eexists. split; [apply (flat_trade_zero_cost pt (t :: rest) Hz o Hc)|].
    rewrite (Qsum_repeat_zero _ _ Hz), Hz. reflexivity.
  - eexists. split.
    + cbn [charges]. rewrite flat_trade_call, (Qeq_eq_bool _ _ Hc).
      cbn [bind]. rewrite flat_trade_after_first; [reflexivity|].
      cbn [record_fill commission]. lra.
    + rewrite Qsum_cons, (Qsum_repeat_zero 0); [ring | reflexivity].
Qed.

(** X6.  Whatever the configured cost, zero included, and however the
    order is split into fills, the charges [PerEquityTrade] and
    [PerFutureTrade] return for a non-empty sequence of fills of an order
    that starts at [commission == 0] add up to the cost. *)
Theorem flat_trade_total (pt : PerTradeBase.t) (o : Order)
    (t : Transaction) (rest : list Transaction) :
  commission o == 0 ->
  exists cs,
    charges (PerEquityTrade pt) o (t :: rest) = Ok cs /\
    charges (PerFutureTrade pt) o (t :: rest) = Ok cs /\
    Qsum cs == PerTradeBase.cost pt.
Proof.
  intros Hc. destruct (flat_trade_run_total pt o t rest Hc) as (cs & Hrun & Hsum).
  exists cs. split; [|split; [|exact Hsum]].
  - rewrite <- Hrun. apply charges_ext. intros o' t'.
    apply (flat_trade_classes pt o' t').
  - rewrite <- Hrun. apply charges_ext. intros o' t'.
    apply (flat_trade_classes pt o' t').
Qed.

Lemma flat_trade_total_witness :
  let o := fresh_order {| root_symbol := "ES" |} in
  commission o == 0 /\
  exists cs,
    charges (PerEquityTrade {| PerTradeBase.cost := 5 |}) o
      [fill 10 20; fill (- (30)) 20] = Ok cs /\
    charges (PerFutureTrade {| PerTradeBase.cost := 5 |}) o
      [fill 10 20; fill (- (30)) 20] = Ok cs /\
    Qsum cs == 5.
Proof.
  cbv zeta. split; [reflexivity|].
  apply (flat_trade_total {| PerTradeBase.cost := 5 |}
           (fresh_order {| root_symbol := "ES" |})
           (fill 10 20) [fill (- (30)) 20]).
  reflexivity.
Defined.

(** X7.  An order that already carries a commission different from zero
    is never charged by the flat-trade policy, whatever the cost and the
    fills: every call of the sequence returns [0.0]. *)
Theorem flat_trade_charged_order_free (pt : PerTradeBase.t) (o : Order)
    (fills : list Transaction) :
  ~ commission o == 0 ->
  charges (PerEquityTrade pt) o fills = Ok (repeat 0 (length fills)) /\
  charges (PerFutureTrade pt) o fills = Ok (repeat 0 (length fills)).
Proof.
  intros Hc. rewrite <- (flat_trade_after_first pt fills o Hc).
  split; apply charges_ext; intros o' t'; apply (flat_trade_classes pt o' t').
Qed.

Lemma flat_trade_charged_order_free_witness :
  let o := {| commission := 1 # 2; filled := 10;
              asset := {| root_symbol := "ES" |} |} in
  ~ commission o == 0 /\
  charges (PerEquityTrade {| PerTradeBase.cost := 5 |}) o
    [fill 10 20; fill 30 20] = Ok [0; 0] /\
  charges (PerFutureTrade {| PerTradeBase.cost := 5 |}) o
    [fill 10 20; fill 30 20] = Ok [0; 0].
Proof.
  cbv zeta. split; [discriminate|].
  apply (flat_trade_charged_order_free {| PerTradeBase.cost := 5 |}
           {| commission := 1 # 2; filled := 10;
              asset := {| root_symbol := "ES" |} |}
           [fill 10 20; fill 30 20]).
  discriminate.
Defined.

(** ** Contract policy: symbols and failures *)

(** X9.  For a root symbol the configured table does not list,
    [PerContract] charges at [2.35] per contract, whichever symbol it is:
    every entry of [DEFAULT_FUTURE_COST_BY_SYMBOL] and
    [DEFAULT_FUTURE_COST_PER_TRADE] carry that same rate. *)
Theorem per_contract_unlisted_symbol (table : gmap string Q)
    (min_cost : option Q) (o : Order) (t : Transaction) :
  table !! root_symbol (asset o) = None ->
  calculate {| PerContract.cost_per_contract := PyDict table;
               PerContract.min_trade_cost := min_cost |} o t
  = Ok (PerUnit._calculate min_cost o t (235 # 100)).
Proof.
  intros Hnone.
  change (calculate _ o t)
    with (PerContract.calculate
            {| PerContract.cost_per_contract := PyDict table;
               PerContract.min_trade_cost := min_cost |} o t).
  unfold PerContract.calculate, py_get, dict_get.
  cbn [PerContract.cost_per_contract PerContract.min_trade_cost].
  rewrite Hnone.
  destruct (DEFAULT_FUTURE_COST_BY_SYMBOL !! root_symbol (asset o))
    as [c |] eqn:Hdef; cbn [bind].
  - rewrite (default_table_entries _ _ Hdef). reflexivity.
  - reflexivity.
Qed.

Lemma per_contract_unlisted_symbol_witness :
  let table : gmap string Q := {[ "ES"%string := 1 # 2 ]} in
  let o := fresh_order {| root_symbol := "ZZ" |} in
  table !! root_symbol (asset o) = None /\
  calculate {| PerContract.cost_per_contract := PyDict table;
               PerContract.min_trade_cost := None |} o (fill 2 100)
  = Ok (PerUnit._calculate None o (fill 2 100) (235 # 100)).
Proof.
  cbv zeta. split; [vm_compute; reflexivity|].
  apply (per_contract_unlisted_symbol {[ "ES"%string := 1 # 2 ]} None
           (fresh_order {| root_symbol := "ZZ" |}) (fill 2 100)).
  vm_compute. reflexivity.
Defined.


(** ** Printing *)

(** X11.  [repr] of a [PerShare] or [PerContract] instance fails with
    [AttributeError]: [PerUnit.__repr__] reads [self.cost_per_unit], an
    attribute no constructor sets.  [PerDollarBase.__repr__] reads
    [self.cost_per_dollar], which exists, and returns the text. *)
Theorem repr_unit_cost_fails (format_value : pyval -> string)
    (ps : PerShare.t) (pc : PerContract.t) (pd : PerDollarBase.t)
    (class_name : string) :
  PerUnit___repr__ format_value class_name (PerShare_attrs ps)
  = Raise AttributeError /\
  PerUnit___repr__ format_value class_name (PerContract_attrs pc)
  = Raise AttributeError /\
  PerDollarBase___repr__ format_value class_name (PerDollarBase_attrs pd)
  = Ok (class_name ++ "(cost_per_dollar="
        ++ format_value (PyFloat (PerDollarBase.cost_per_dollar pd))
        ++ ")")%string.
Proof.
  repeat split.
Qed.
